(** * The transformer MLP block of megatron/core/transformer/mlp.py

    A shallow embedding of the class [MLP]: its constructor, the nested
    functions [glu], [_apply_non_linear] and [_custom_function], and the
    methods [_forward] and [forward].

    Tensors hold elements of an abstract type with abstract arithmetic, so
    nothing below depends on floating point.  Exceptions are values of [exn];
    the calls of the recomputation primitive are recorded in a log, so that
    "which region was checkpointed" is observable. *)

From Stdlib Require Import String Bool Arith PeanoNat Lia ZArith List.
Import ListNotations.

(** ** Exceptions and the two effect layers *)

Inductive exn : Type :=
| AssertionError   (* a failed [assert] of mlp.py *)
| IndexError       (* subscript out of range *)
| TypeError        (* an operand that is None *)
| ShapeError.      (* width mismatch reported by torch or by a linear layer *)

(** Pure code that may raise. *)
Definition result (A : Type) : Type := (exn + A)%type.

Definition bindR {A B} (c : result A) (k : A -> result B) : result B :=
  match c with
  | inl e => inl e
  | inr a => k a
  end.

(** The function objects handed to [tensor_parallel.checkpoint]. *)
Inductive ckpt_region : Type :=
| Region_apply_non_linear    (* the nested function [_apply_non_linear] *)
| Region_custom_function.    (* the nested function [_custom_function] *)

(** Code that may raise and that logs each call of the recomputation
    primitive, in call order. *)
Definition M (A : Type) : Type := (list ckpt_region * result A)%type.

Definition ret {A} (a : A) : M A := ([], inr a).

Definition lift {A} (c : result A) : M A := ([], c).

Definition bind {A B} (c : M A) (k : A -> M B) : M B :=
  match c with
  | (log, inl e) => (log, inl e)
  | (log, inr a) => let (log', r) := k a in (log ++ log', r)
  end.

Definition tell (r : ckpt_region) : M unit := ([r], inr tt).

Definition trace {A} (c : M A) : list ckpt_region := fst c.
Definition outcome {A} (c : M A) : result A := snd c.

Declare Scope mlp_scope.
Delimit Scope mlp_scope with mlp.
Notation "x <~ c ;; k" := (bindR c (fun x => k))
  (at level 61, c at next level, right associativity) : mlp_scope.
Notation "x <- c ;; k" := (bind c (fun x => k))
  (at level 61, c at next level, right associativity) : mlp_scope.
Notation "' pat <- c ;; k" := (bind c (fun x => match x with pat => k end))
  (at level 61, pat pattern, c at next level, right associativity) : mlp_scope.
Local Open Scope mlp_scope.

(** [assert cond] *)
Definition assert (cond : bool) : result unit :=
  if cond then inr tt else inl AssertionError.

(** Subscript of a Python tuple or list. *)
Definition getitem {A} (xs : list A) (i : nat) : result A :=
  match nth_error xs i with
  | Some a => inr a
  | None => inl IndexError
  end.

Definition zip_with {A B C} (f : A -> B -> C) (l1 : list A) (l2 : list B) : list C :=
  map (fun p => f (fst p) (snd p)) (combine l1 l2).

(** ** What the framework supplies

    The element type of tensors with its arithmetic, [F.gelu] and the
    activation of the fused bias-GELU kernel on one element, and the bias
    values a linear layer holds, by output index. *)
Class Backend (T : Type) : Type := {
  elt_zero : T;
  elt_add : T -> T -> T;
  elt_mul : T -> T -> T;
  gelu_elt : T -> T;
  fused_gelu_elt : T -> T;
  bias_init : nat -> T
}.

Section Elements.

Context {T : Type} {backend : Backend T}.

(** ** Tensors

    Every operation of the block works along the last axis, so a tensor is
    kept as its leading dimensions, the size of its last axis and its rows
    along that axis in row-major order: shape [[s; b; h]] is leading
    dimensions [[s; b]], width [h] and [s * b] rows of [h] elements.  A 1-D
    tensor has no leading dimension and one row. *)
Record tensor : Type := mkTensor {
  lead : list nat;
  width : nat;
  rows : list (list T)
}.

Definition shape (x : tensor) : list nat := lead x ++ [width x].

Definition numel (dims : list nat) : nat := fold_right Nat.mul 1 dims.

Definition wf (x : tensor) : Prop :=
  length (rows x) = numel (lead x) /\ Forall (fun r => length r = width x) (rows x).

Definition map_tensor (f : T -> T) (x : tensor) : tensor :=
  mkTensor (lead x) (width x) (map (map f) (rows x)).

(** Broadcasting along the last axis: equal sizes, or one of them 1. *)
Definition bcast_width (w1 w2 : nat) : result nat :=
  if w1 =? w2 then inr w1
  else if w2 =? 1 then inr w1
  else if w1 =? 1 then inr w2
  else inl ShapeError.

Definition expand_row (w : nat) (r : list T) : list T :=
  match r with
  | [a] => repeat a w
  | _ => r
  end.

(** [x op y] of torch for the operand shapes that occur in this file: the
    same leading dimensions, or [y] 1-D (a bias against a batch).  Other
    combinations of leading dimensions are reported as a shape error. *)
Definition tensor_binop (op : T -> T -> T) (x y : tensor) : result tensor :=
  w <~ bcast_width (width x) (width y) ;;
  let row_op := fun r1 r2 => zip_with op (expand_row w r1) (expand_row w r2) in
  if list_eq_dec Nat.eq_dec (lead x) (lead y) then
    inr (mkTensor (lead x) w (zip_with row_op (rows x) (rows y)))
  else
    match lead y, rows y with
    | [], [b] => inr (mkTensor (lead x) w (map (fun r => row_op r b) (rows x)))
    | _, _ => inl ShapeError
    end.

(** [torch.chunk(x, chunks, dim=-1)]: pieces of [ceil(width / chunks)]
    elements, the last one possibly shorter, as many as are needed to cover
    the axis; an axis of size 0 gives [chunks] empty pieces. *)
Definition chunk (x : tensor) (chunks : nat) : result (list tensor) :=
  if chunks =? 0 then inl ShapeError
  else
    let split_size := (width x + chunks - 1) / chunks in
    let pieces :=
      if split_size =? 0 then chunks
      else (width x + split_size - 1) / split_size in
    inr (map (fun i =>
                mkTensor (lead x)
                         (Nat.min split_size (width x - i * split_size))
                         (map (fun r => firstn split_size (skipn (i * split_size) r))
                              (rows x)))
             (seq 0 pieces)).

(** ** Function objects

    [config.activation_func] is a callable applied elementwise.  Python
    compares functions by identity, so a callable is [F.gelu] itself or some
    other function object, whatever it computes. *)
Inductive callable : Type :=
| F_gelu
| UserFn (name : nat) (f : T -> T).

Definition callable_elt (c : callable) : T -> T :=
  match c with
  | F_gelu => gelu_elt
  | UserFn _ f => f
  end.

Definition call (c : callable) (x : tensor) : tensor :=
  map_tensor (callable_elt c) x.

(** ** Configuration (the fields of TransformerConfig that mlp.py reads) *)
Record TransformerConfig : Type := mkConfig {
  hidden_size : nat;
  ffn_hidden_size : nat;
  gated_linear_unit : bool;
  add_bias_linear : bool;
  bias_gelu_fusion : bool;
  activation_func : callable;
  init_method : nat -> nat -> T;
  output_layer_init_method : nat -> nat -> T;
  recompute_granularity : option string;
  recompute_non_linear_layer_in_mlp : bool
}.

(** ** The parallel linear layers

    Modelled from the spec: the classes TEColumnParallelLinear and
    TERowParallelLinear of megatron/core/transformer/custom_layers are not
    part of the sources.  The spec gives the primitive as
    [forward(input) -> (output, optional_bias)] with construction-time
    parameters input width, output width, whether to hold a bias, whether to
    defer bias addition and an initialization strategy; width mismatches are
    raised by the primitive.  The layer is modelled at its logical,
    unpartitioned width. *)
Record ParallelLinear : Type := mkLinear {
  in_features : nat;
  out_features : nat;
  weight : nat -> nat -> T;      (* weight j i: output index j, input index i *)
  use_bias : bool;
  skip_bias_add : bool
}.

Definition TEColumnParallelLinear (input_size output_size : nat)
    (config : TransformerConfig) (init : nat -> nat -> T)
    (bias skip : bool) : ParallelLinear :=
  mkLinear input_size output_size init bias skip.

Definition TERowParallelLinear (input_size output_size : nat)
    (config : TransformerConfig) (init : nat -> nat -> T)
    (bias skip : bool) : ParallelLinear :=
  mkLinear input_size output_size init bias skip.

Definition dot (r : list T) (w : nat -> T) : T :=
  fold_right elt_add elt_zero (zip_with elt_mul r (map w (seq 0 (length r)))).

Definition linear_bias (l : ParallelLinear) : tensor :=
  mkTensor [] (out_features l) [map bias_init (seq 0 (out_features l))].

(** The product of every row with the weight matrix. *)
Definition linear_gemm (l : ParallelLinear) (x : tensor) : tensor :=
  mkTensor (lead x) (out_features l)
    (map (fun r => map (fun j => dot r (weight l j)) (seq 0 (out_features l)))
         (rows x)).

Definition linear_forward (l : ParallelLinear) (x : tensor)
  : result (tensor * option tensor) :=
  if width x =? in_features l then
    let out := linear_gemm l x in
    if use_bias l then
      if skip_bias_add l then inr (out, Some (linear_bias l))
      else out' <~ tensor_binop elt_add out (linear_bias l) ;; inr (out', None)
    else inr (out, None)
  else inl ShapeError.

(** ** The fused kernel

    Modelled from the spec: bias_gelu_impl of megatron/core/fusions is not
    part of the sources.  The spec gives it as [apply(tensor, bias) -> tensor],
    valid for one fixed activation function: the bias is added and the
    kernel's GELU is applied, elementwise. *)
Definition bias_gelu_impl (x : tensor) (bias : option tensor) : result tensor :=
  match bias with
  | None => inl TypeError
  | Some b => tensor_binop (fun y c => fused_gelu_elt (elt_add y c)) x b
  end.

(** ** The recomputation primitive

    Modelled from the spec: tensor_parallel.checkpoint is not part of the
    sources.  The spec gives it as
    [run(function, determinism_flag, *args) -> results matching function's
    return arity]: in the forward pass it runs the function on the arguments
    and hands back what the function returned.  The model logs the call
    under the name of the function it was given. *)
Definition checkpoint {A B} (name : ckpt_region) (function : A -> M B)
    (distribute_saved_activations : bool) (args : A) : M B :=
  _ <- tell name ;; function args.

(** ** Python values returned by [forward] *)
#[local] Set Warnings "-register-all".

Inductive pyval : Type :=
| PyNone
| PyTensor (t : tensor)
| PyTuple (items : list pyval).

Definition py_optional (b : option tensor) : pyval :=
  match b with
  | Some t => PyTensor t
  | None => PyNone
  end.

(** [isinstance(v, tuple) and len(v) == 2] *)
Definition is_tuple2 (v : pyval) : bool :=
  match v with
  | PyTuple [_; _] => true
  | _ => false
  end.

(** ** class MLP *)

(** The function object bound to [self.activation_func]: the configured
    callable, or the closure [glu] created by the constructor, which reads
    [self.config.activation_func] when it is called. *)
Inductive pyfunc : Type :=
| ConfigFn (c : callable)
| GluClosure (config : TransformerConfig).

(** [f == F.gelu]: identity of function objects. *)
Definition is_F_gelu (f : pyfunc) : bool :=
  match f with
  | ConfigFn F_gelu => true
  | _ => false
  end.

Definition glu (config : TransformerConfig) (x : tensor) : result tensor :=
  x <~ chunk x 2 ;;
  x0 <~ getitem x 0 ;;
  x1 <~ getitem x 1 ;;
  tensor_binop elt_mul (call (activation_func config) x0) x1.

Definition call_pyfunc (f : pyfunc) (x : tensor) : result tensor :=
  match f with
  | ConfigFn c => inr (call c x)
  | GluClosure config => glu config x
  end.

Record MLP : Type := mkMLP {
  self_config : TransformerConfig;
  self_linear_fc1 : ParallelLinear;
  self_activation_func : pyfunc;
  self_linear_fc2 : ParallelLinear;
  self_checkpoint_mlp : bool;
  self_recompute_non_linear_layer_in_mlp : bool
}.

(** [g in ['selective_mlp_only', 'selective_both']] *)
Definition granularity_in_mlp_list (g : option string) : bool :=
  match g with
  | Some s => String.eqb s "selective_mlp_only"%string
              || String.eqb s "selective_both"%string
  | None => false
  end.

Definition __init__ (config : TransformerConfig) : MLP :=
  let ffn := ffn_hidden_size config in
  let ffn := if gated_linear_unit config then ffn * 2 else ffn in
  let linear_fc1 :=
    TEColumnParallelLinear (hidden_size config) ffn config
      (init_method config) (add_bias_linear config) true in
  let activation :=
    if gated_linear_unit config then GluClosure config
    else ConfigFn (activation_func config) in
  let linear_fc2 :=
    TERowParallelLinear (ffn_hidden_size config) (hidden_size config) config
      (output_layer_init_method config) (add_bias_linear config) true in
  mkMLP config linear_fc1 activation linear_fc2
        (granularity_in_mlp_list (recompute_granularity config))
        (recompute_non_linear_layer_in_mlp config).

Definition _apply_non_linear (self : MLP)
    (intermediate_parallel : tensor) (bias_parallel : option tensor)
  : result tensor :=
  if bias_gelu_fusion (self_config self) then
    _ <~ assert (add_bias_linear (self_config self)) ;;
    _ <~ assert (is_F_gelu (self_activation_func self)) ;;
    bias_gelu_impl intermediate_parallel bias_parallel
  else
    intermediate_parallel <~
      match bias_parallel with
      | Some b => tensor_binop elt_add intermediate_parallel b
      | None => inr intermediate_parallel
      end ;;
    call_pyfunc (self_activation_func self) intermediate_parallel.

Definition _forward (self : MLP) (hidden_states : tensor)
  : M (tensor * option tensor) :=
  '(intermediate_parallel, bias_parallel) <-
     lift (linear_forward (self_linear_fc1 self) hidden_states) ;;
  intermediate_parallel <-
    (if self_recompute_non_linear_layer_in_mlp self then
       checkpoint Region_apply_non_linear
         (fun args => lift (_apply_non_linear self (fst args) (snd args)))
         false (intermediate_parallel, bias_parallel)
     else lift (_apply_non_linear self intermediate_parallel bias_parallel)) ;;
  lift (linear_forward (self_linear_fc2 self) intermediate_parallel).

Definition _custom_function (self : MLP) (hidden_states : tensor) : M pyval :=
  '(output, output_bias) <- _forward self hidden_states ;;
  match output_bias with
  | Some b => ret (PyTuple [PyTensor output; PyTensor b])
  | None => ret (PyTensor output)
  end.

Definition forward (self : MLP) (hidden_states : tensor) : M pyval :=
  if self_checkpoint_mlp self then
    results <- checkpoint Region_custom_function (_custom_function self)
                 false hidden_states ;;
    if is_tuple2 results then ret results
    else ret (PyTuple [results; PyNone])
  else
    '(output, output_bias) <- _forward self hidden_states ;;
    ret (PyTuple [PyTensor output; py_optional output_bias]).

End Elements.

Arguments tensor T : clear implicits.
Arguments callable T : clear implicits.
Arguments TransformerConfig T : clear implicits.
Arguments ParallelLinear T : clear implicits.
Arguments pyval T : clear implicits.
Arguments pyfunc T : clear implicits.
Arguments MLP T : clear implicits.

(** The configuration with both recomputation settings switched off and
    every other field kept. *)
Definition without_recompute {T} (config : TransformerConfig T) : TransformerConfig T :=
  mkConfig (hidden_size config) (ffn_hidden_size config)
    (gated_linear_unit config) (add_bias_linear config)
    (bias_gelu_fusion config) (activation_func config)
    (init_method config) (output_layer_init_method config)
    None false.

(** [c == F.gelu] on configured callables. *)
Definition callable_is_F_gelu {T} (c : callable T) : bool :=
  match c with
  | F_gelu => true
  | UserFn _ _ => false
  end.

(** ** Reference computations used in the statements below *)

(** The three stages of the block in sequence, without the log: input
    projection, nonlinearity stage, output projection. *)
Definition stages {T} {backend : Backend T} (self : MLP T) (hidden_states : tensor T)
  : result (tensor T * option (tensor T)) :=
  p <~ linear_forward (self_linear_fc1 self) hidden_states ;;
  i <~ _apply_non_linear self (fst p) (snd p) ;;
  linear_forward (self_linear_fc2 self) i.

(** The Python tuple [(output, output_bias)]. *)
Definition as_pair {T} (p : tensor T * option (tensor T)) : pyval T :=
  PyTuple [PyTensor (fst p); py_optional (snd p)].

(** ** A backend over the integers, on which the block can be run *)

Definition relu (z : Z) : Z := Z.max 0 z.

#[export] Instance Z_backend : Backend Z := {|
  elt_zero := 0%Z;
  elt_add := Z.add;
  elt_mul := Z.mul;
  gelu_elt := relu;
  fused_gelu_elt := relu;
  bias_init := fun j => Z.of_nat j
|}.

Definition demo_config (gated bias fusion : bool) (act : callable Z)
    (granularity : option string) (recompute_non_linear : bool)
  : TransformerConfig Z :=
  mkConfig 2 2 gated bias fusion act
    (fun j i => Z.of_nat (j + i)) (fun j i => Z.of_nat (j * i + 1))
    granularity recompute_non_linear.

(** A hidden state of shape [[1; 2; 2]]. *)
Definition demo_input : tensor Z := mkTensor [1; 2] 2 [[1; 2]; [3; -4]]%Z.

(** An intermediate tensor of shape [[2; 4]]. *)
Definition demo_intermediate : tensor Z :=
  mkTensor [2] 4 [[1; -2; 3; 7]; [4; 5; 6; 8]]%Z.

Definition square : callable Z := UserFn 7 (fun z => (z * z)%Z).

(** Both recomputation settings requested. *)
Definition both_gates_config : TransformerConfig Z :=
  demo_config false true false F_gelu (Some "selective_both"%string) true.

(** Full-MLP recomputation, no biases. *)
Definition checkpointed_no_bias_config : TransformerConfig Z :=
  demo_config false false false F_gelu (Some "selective_mlp_only"%string) false.

(** A granularity outside the list of the constructor. *)
Definition selective_config : TransformerConfig Z :=
  demo_config false true false F_gelu (Some "selective"%string) false.

(** The fused kernel requested without biases. *)
Definition fused_without_bias_config : TransformerConfig Z :=
  demo_config false false true F_gelu None false.

(** Gating and the fused kernel together, with [F.gelu] configured. *)
Definition gated_fused_config : TransformerConfig Z :=
  demo_config true true true F_gelu None false.

(** Gating with a user activation, no fused kernel. *)
Definition gated_config : TransformerConfig Z :=
  demo_config true true false square None false.

(** ** The block on one row

    What the three stages compute on a single row of the hidden state, for a
    configuration whose fused-kernel setting is consistent: projection by the
    weights of [linear_fc1], the nonlinearity with the bias of [linear_fc1],
    projection by the weights of [linear_fc2]. *)
Definition stage_row {T} {backend : Backend T} (config : TransformerConfig T)
    (projected : list T) : list T :=
  let n1 := if gated_linear_unit config
            then ffn_hidden_size config * 2 else ffn_hidden_size config in
  let act := callable_elt (activation_func config) in
  let bias := map bias_init (seq 0 n1) in
  if bias_gelu_fusion config then
    zip_with (fun y c => fused_gelu_elt (elt_add y c)) projected bias
  else
    let summed :=
      if add_bias_linear config then zip_with elt_add projected bias
      else projected in
    if gated_linear_unit config then
      zip_with elt_mul (map act (firstn (ffn_hidden_size config) summed))
               (skipn (ffn_hidden_size config) summed)
    else map act summed.

Definition mlp_row {T} {backend : Backend T} (config : TransformerConfig T)
    (r : list T) : list T :=
  let n1 := if gated_linear_unit config
            then ffn_hidden_size config * 2 else ffn_hidden_size config in
  let projected := map (fun j => dot r (init_method config j)) (seq 0 n1) in
  map (fun j => dot (stage_row config projected) (output_layer_init_method config j))
      (seq 0 (hidden_size config)).

(** The fused-kernel setting is consistent: off, or on with biases, without
    gating and with [F.gelu] itself as activation function. *)
Definition fusion_consistent {T} (config : TransformerConfig T) : bool :=
  negb (bias_gelu_fusion config)
  || (add_bias_linear config && negb (gated_linear_unit config)
      && callable_is_F_gelu (activation_func config)).

(** A hidden state of the wrong width, and tensors of odd width. *)
Definition narrow_input : tensor Z := mkTensor [1; 2] 1 [[5]; [6]]%Z.

Definition width3_input : tensor Z := mkTensor [2] 3 [[1; 2; 3]; [4; 5; 6]]%Z.

Definition width5_input : tensor Z := mkTensor [1] 5 [[1; 2; 3; 4; 5]]%Z.

(** Gating, biases and both recomputation settings. *)
Definition gated_both_gates_config : TransformerConfig Z :=
  demo_config true true false square (Some "selective_both"%string) true.

(** * Properties *)

Section Properties.

Context {T : Type} {backend : Backend T}.

(** ** The effect layer *)

Lemma outcome_bind {A B} (c : M A) (k : A -> M B) :
  outcome (bind c k) = bindR (outcome c) (fun a => outcome (k a)).
Proof.
  destruct c as [log [e | a]]; simpl; [reflexivity |].
  destruct (k a); reflexivity.
Qed.

Lemma trace_bind {A B} (c : M A) (k : A -> M B) :
  trace (bind c k) =
  trace c ++ match outcome c with
             | inl _ => []
             | inr a => trace (k a)
             end.
Proof.
  destruct c as [log [e | a]]; simpl.
  - now rewrite app_nil_r.
  - destruct (k a); reflexivity.
Qed.

Lemma outcome_lift {A} (c : result A) : outcome (lift c) = c.
Proof. reflexivity. Qed.

Lemma trace_lift {A} (c : result A) : trace (lift c) = [].
Proof. reflexivity. Qed.

Lemma outcome_checkpoint {A B} name (f : A -> M B) flag args :
  outcome (checkpoint name f flag args) = outcome (f args).
Proof.
  unfold checkpoint. rewrite outcome_bind. reflexivity.
Qed.

Lemma trace_checkpoint {A B} name (f : A -> M B) flag args :
  trace (checkpoint name f flag args) = name :: trace (f args).
Proof.
  unfold checkpoint. rewrite trace_bind. reflexivity.
Qed.

(** ** [_forward] and [forward] without the log *)

Lemma outcome__forward self x : outcome (_forward self x) = stages self x.
Proof.
  unfold _forward, stages.
  rewrite outcome_bind, outcome_lift.
  destruct (linear_forward (self_linear_fc1 self) x) as [e | [i b]]; simpl bindR;
    [reflexivity |].
  rewrite outcome_bind.
  destruct (self_recompute_non_linear_layer_in_mlp self).
  - rewrite outcome_checkpoint. reflexivity.
  - reflexivity.
Qed.

Lemma trace__forward self x :
  trace (_forward self x) =
  match linear_forward (self_linear_fc1 self) x with
  | inl _ => []
  | inr _ => if self_recompute_non_linear_layer_in_mlp self
             then [Region_apply_non_linear] else []
  end.
Proof.
  unfold _forward.
  rewrite trace_bind, outcome_lift, trace_lift.
  destruct (linear_forward (self_linear_fc1 self) x) as [e | [i b]]; simpl app;
    [reflexivity |].
  rewrite trace_bind.
  destruct (self_recompute_non_linear_layer_in_mlp self).
  - rewrite trace_checkpoint, outcome_checkpoint. simpl.
    destruct (_apply_non_linear self i b); reflexivity.
  - simpl. destruct (_apply_non_linear self i b); reflexivity.
Qed.

Lemma outcome__custom_function self x :
  outcome (_custom_function self x) =
  p <~ stages self x ;;
  inr (match snd p with
       | Some b => PyTuple [PyTensor (fst p); PyTensor b]
       | None => PyTensor (fst p)
       end).
Proof.
  unfold _custom_function.
  rewrite outcome_bind, outcome__forward.
  destruct (stages self x) as [e | [o [b |]]]; reflexivity.
Qed.

Lemma outcome_forward self x :
  outcome (forward self x) = p <~ stages self x ;; inr (as_pair p).
Proof.
  unfold forward.
  destruct (self_checkpoint_mlp self).
  - rewrite outcome_bind, outcome_checkpoint, outcome__custom_function.
    destruct (stages self x) as [e | [o [b |]]]; reflexivity.
  - rewrite outcome_bind, outcome__forward.
    destruct (stages self x) as [e | [o b]]; reflexivity.
Qed.

Lemma trace_forward self x :
  trace (forward self x) =
  (if self_checkpoint_mlp self then [Region_custom_function] else [])
  ++ trace (_forward self x).
Proof.
  unfold forward.
  destruct (self_checkpoint_mlp self).
  - rewrite trace_bind, trace_checkpoint, outcome_checkpoint.
    unfold _custom_function at 1.
    rewrite trace_bind.
    rewrite outcome__custom_function, outcome__forward.
    destruct (stages self x) as [e | [o [b |]]]; simpl; now rewrite !app_nil_r.
  - rewrite trace_bind, outcome__forward.
    destruct (stages self x) as [e | [o b]]; simpl; now rewrite ?app_nil_r.
Qed.

(** ** The recomputation gates *)

Lemma granularity_in_mlp_list_spec (g : option string) :
  granularity_in_mlp_list g = true <->
  g = Some "selective_mlp_only"%string \/ g = Some "selective_both"%string.
Proof.
  destruct g as [s |]; simpl.
  - rewrite orb_true_iff, !String.eqb_eq.
    split; intros [H | H]; [left | right | left | right]; congruence.
  - split; [discriminate | intros [H | H]; discriminate].
Qed.

(** C10: the full-MLP recompute gate [checkpoint_mlp] is set exactly when
    [recompute_granularity] is the string 'selective_mlp_only' or the string
    'selective_both'.  For every other value, None included, the gate is off,
    [forward] is the direct call of [_forward] with its result returned as a
    pair, and [_custom_function] is never handed to the recomputation
    primitive. *)
Theorem checkpoint_mlp_iff_selective_granularity (config : TransformerConfig T) :
  (self_checkpoint_mlp (__init__ config) = true <->
     recompute_granularity config = Some "selective_mlp_only"%string \/
     recompute_granularity config = Some "selective_both"%string)
  /\ (self_checkpoint_mlp (__init__ config) = false ->
      forall x : tensor T,
        forward (__init__ config) x =
          (p <- _forward (__init__ config) x ;; ret (as_pair p))
        /\ ~ In Region_custom_function (trace (forward (__init__ config) x))).
Proof.
  split.
  - apply granularity_in_mlp_list_spec.
  - intros Hoff x. split.
    + unfold forward. rewrite Hoff.
      destruct (_forward (__init__ config) x) as [log [e | [o b]]]; reflexivity.
    + rewrite trace_forward, Hoff, trace__forward. simpl.
      destruct (linear_forward _ x); [intros [] |].
      destruct (recompute_non_linear_layer_in_mlp config); simpl; intuition discriminate.
Qed.

(** C1, as the code has it: the two gates are set independently, each from
    its own configuration setting: [checkpoint_mlp] is on exactly when
    [recompute_granularity] is 'selective_mlp_only' or 'selective_both', and
    [recompute_non_linear_layer_in_mlp] is the configuration field of that
    name.  Both are enabled exactly when the configuration asks for both, and
    one call of [forward] hands both [_custom_function] and
    [_apply_non_linear] to the recomputation primitive only in that case,
    and does so, in that order, once the input projection has accepted the
    hidden state; under every other configuration at most one gate is
    enabled and [forward] makes at most one such call. *)
Theorem recompute_gates_follow_config (config : TransformerConfig T) :
  (self_checkpoint_mlp (__init__ config) =
     granularity_in_mlp_list (recompute_granularity config)
   /\ (self_checkpoint_mlp (__init__ config) = true <->
       recompute_granularity config = Some "selective_mlp_only"%string \/
       recompute_granularity config = Some "selective_both"%string)
   /\ self_recompute_non_linear_layer_in_mlp (__init__ config) =
      recompute_non_linear_layer_in_mlp config)
  /\ (self_checkpoint_mlp (__init__ config) = true /\
      self_recompute_non_linear_layer_in_mlp (__init__ config) = true <->
      granularity_in_mlp_list (recompute_granularity config) = true /\
      recompute_non_linear_layer_in_mlp config = true)
  /\ (forall x : tensor T,
        In Region_custom_function (trace (forward (__init__ config) x)) ->
        In Region_apply_non_linear (trace (forward (__init__ config) x)) ->
        granularity_in_mlp_list (recompute_granularity config) = true /\
        recompute_non_linear_layer_in_mlp config = true)
  /\ (granularity_in_mlp_list (recompute_granularity config) = true ->
      recompute_non_linear_layer_in_mlp config = true ->
      forall x : tensor T,
        width x = hidden_size config ->
        trace (forward (__init__ config) x) =
        [Region_custom_function; Region_apply_non_linear])
  /\ (granularity_in_mlp_list (recompute_granularity config)
      && recompute_non_linear_layer_in_mlp config = false ->
      self_checkpoint_mlp (__init__ config)
      && self_recompute_non_linear_layer_in_mlp (__init__ config) = false
      /\ forall x : tensor T,
           length (trace (forward (__init__ config) x)) <= 1).
Proof.
  split; [| split; [| split; [| split]]].
  - split; [reflexivity | split; [| reflexivity]].
    apply granularity_in_mlp_list_spec.
  - simpl; tauto.
  - intros x. rewrite trace_forward, trace__forward. simpl.
    destruct (granularity_in_mlp_list (recompute_granularity config));
      destruct (recompute_non_linear_layer_in_mlp config);
      destruct (linear_forward _ x); simpl; intuition discriminate.
  - intros Hg Hr x Hw. rewrite trace_forward, trace__forward.
    cbn [self_checkpoint_mlp self_recompute_non_linear_layer_in_mlp
         self_linear_fc1 __init__].
    rewrite Hg, Hr.
    unfold linear_forward, TEColumnParallelLinear.
    cbn [in_features use_bias skip_bias_add].
    rewrite Hw, Nat.eqb_refl.
    destruct (add_bias_linear config); reflexivity.
  - intros Hnot. split; [exact Hnot |].
    intros x. rewrite trace_forward, trace__forward.
    cbn [self_checkpoint_mlp self_recompute_non_linear_layer_in_mlp __init__].
    destruct (granularity_in_mlp_list (recompute_granularity config));
      destruct (recompute_non_linear_layer_in_mlp config);
      try discriminate;
      destruct (linear_forward _ x); simpl; lia.
Qed.

(** C5: [forward] returns the same result, or raises the same exception,
    whether the recomputation gates are enabled or not: the configuration
    with both settings switched off gives the same outcome on the same input
    and weights. *)
Theorem recompute_is_transparent (config : TransformerConfig T) (x : tensor T) :
  outcome (forward (__init__ config) x) =
  outcome (forward (__init__ (without_recompute config)) x).
Proof.
  rewrite !outcome_forward.
  destruct config as [h f gated b fu act i1 i2 gran rnl].
  destruct gated; reflexivity.
Qed.

(** C6: whenever [forward] returns, it returns a two-element tuple of the
    output tensor and either a bias tensor or None.  When the full-MLP
    recompute gate is on and [_custom_function] yields the output alone,
    [forward] returns that output paired with None. *)
Theorem forward_returns_a_pair (self : MLP T) (x : tensor T) :
  (forall v, outcome (forward self x) = inr v ->
     exists out, v = PyTuple [PyTensor out; PyNone] \/
                 exists b, v = PyTuple [PyTensor out; PyTensor b])
  /\ (forall out, self_checkpoint_mlp self = true ->
        outcome (_custom_function self x) = inr (PyTensor out) ->
        forward self x =
          (trace (checkpoint Region_custom_function (_custom_function self) false x),
           inr (PyTuple [PyTensor out; PyNone]))).
Proof.
  split.
  - intros v. rewrite outcome_forward.
    destruct (stages self x) as [e | [o [b |]]]; simpl; intros H;
      inversion H; subst; exists o; [right; exists b | left]; reflexivity.
  - intros out Hon Hsingle. unfold forward. rewrite Hon.
    unfold checkpoint.
    destruct (_custom_function self x) as [log [e | v]]; simpl in *;
      [discriminate |].
    inversion Hsingle; subst. simpl. now rewrite app_nil_r.
Qed.

(** ** Rows and tensors *)

Lemma length_zip_with {A B C} (f : A -> B -> C) l1 l2 :
  length (zip_with f l1 l2) = Nat.min (length l1) (length l2).
Proof.
  unfold zip_with. now rewrite length_map, length_combine.
Qed.

Lemma zip_with_map_same {A B C D} (f : B -> C -> D) (g : A -> B) (h : A -> C) l :
  zip_with f (map g l) (map h l) = map (fun a => f (g a) (h a)) l.
Proof.
  unfold zip_with. induction l as [| a l IH]; simpl; [reflexivity |].
  now rewrite IH.
Qed.

Lemma expand_row_id (w : nat) (r : list T) :
  length r = w -> expand_row w r = r.
Proof.
  destruct r as [| a [| b r]]; simpl; intros <-; reflexivity.
Qed.

Lemma bcast_width_same (w : nat) : bcast_width w w = inr w.
Proof. unfold bcast_width. now rewrite Nat.eqb_refl. Qed.

Lemma wf_map_tensor (f : T -> T) (x : tensor T) : wf x -> wf (map_tensor f x).
Proof.
  intros [Hn Hw]. split; simpl.
  - now rewrite length_map.
  - rewrite Forall_map. eapply Forall_impl; [| exact Hw].
    intros r Hr. simpl in *. now rewrite length_map.
Qed.

(** Adding a well-formed 1-D tensor of the same width, row by row. *)
Lemma tensor_binop_bias (op : T -> T -> T) (x y : tensor T) (b : list T) :
  wf x -> lead y = [] -> rows y = [b] -> length b = width y ->
  width y = width x ->
  tensor_binop op x y =
  inr (mkTensor (lead x) (width x) (map (fun r => zip_with op r b) (rows x))).
Proof.
  intros [Hn Hw] Hlead Hrows Hb Hwidth.
  unfold tensor_binop. rewrite Hwidth, bcast_width_same. simpl bindR.
  assert (Hmap : map (fun r => zip_with op (expand_row (width x) r)
                                        (expand_row (width x) b)) (rows x)
                 = map (fun r => zip_with op r b) (rows x)).
  { apply map_ext_in. intros r Hr.
    rewrite Forall_forall in Hw.
    rewrite !expand_row_id; auto; congruence. }
  destruct (list_eq_dec Nat.eq_dec (lead x) (lead y)) as [Heq | Hne].
  - rewrite Hrows. rewrite Hlead in Heq. rewrite Heq in Hn. simpl in Hn.
    destruct (rows x) as [| r [| r' l]]; simpl in Hn; try discriminate.
    simpl in Hmap. unfold zip_with at 1. simpl. do 2 f_equal. exact Hmap.
  - rewrite Hlead, Hrows. now rewrite Hmap.
Qed.

Lemma chunk_even (x : tensor T) (k : nat) :
  width x = 2 * k ->
  chunk x 2 =
  inr [mkTensor (lead x) k (map (fun r => firstn k (skipn 0 r)) (rows x));
       mkTensor (lead x) k (map (fun r => firstn k (skipn k r)) (rows x))].
Proof.
  intros Hw. unfold chunk. rewrite Hw.
  change (2 =? 0) with false. cbv beta iota zeta.
  assert (Hss : (2 * k + 2 - 1) / 2 = k).
  { replace (2 * k + 2 - 1) with (1 + k * 2) by lia.
    rewrite Nat.div_add by lia. reflexivity. }
  rewrite Hss.
  assert (Hp : (if k =? 0 then 2 else (2 * k + k - 1) / k) = 2).
  { destruct (Nat.eqb_spec k 0) as [| Hk]; [reflexivity |].
    replace (2 * k + k - 1) with ((k - 1) + 2 * k) by lia.
    rewrite Nat.div_add by lia.
    rewrite Nat.div_small by lia. reflexivity. }
  rewrite Hp. change (seq 0 2) with [0; 1]. cbn [map].
  replace (Nat.min k (2 * k - 0 * k)) with k by lia.
  replace (Nat.min k (2 * k - 1 * k)) with k by lia.
  replace (1 * k) with k by lia.
  reflexivity.
Qed.

(** The closure [glu] on a tensor of even width [2 * k]. *)
Lemma glu_even (config : TransformerConfig T) (x : tensor T) (k : nat) :
  width x = 2 * k ->
  Forall (fun r => length r = width x) (rows x) ->
  glu config x =
  inr (mkTensor (lead x) k
         (map (fun r => zip_with elt_mul
                          (map (callable_elt (activation_func config)) (firstn k r))
                          (skipn k r))
              (rows x))).
Proof.
  intros Hw Hrows. unfold glu.
  rewrite (chunk_even x k Hw). simpl bindR.
  unfold tensor_binop. simpl width. rewrite bcast_width_same. simpl bindR.
  simpl lead.
  destruct (list_eq_dec Nat.eq_dec (lead x) (lead x)) as [_ | Hne];
    [| now elim Hne].
  do 2 f_equal. simpl rows.
  rewrite map_map. rewrite zip_with_map_same.
  apply map_ext_in. intros r Hr.
  rewrite Forall_forall in Hrows. specialize (Hrows r Hr). rewrite Hw in Hrows.
  simpl skipn.
  assert (Hl1 : length (firstn k r) = k) by (rewrite length_firstn; lia).
  assert (Hl2 : length (skipn k r) = k) by (rewrite length_skipn; lia).
  rewrite (firstn_all2 (skipn k r)) by lia.
  rewrite !expand_row_id; [reflexivity | assumption | now rewrite length_map].
Qed.

(** ** The linear layers *)

Lemma wf_linear_gemm (l : ParallelLinear T) (x : tensor T) :
  length (rows x) = numel (lead x) -> wf (linear_gemm l x).
Proof.
  intros Hn. split; simpl.
  - now rewrite length_map.
  - rewrite Forall_map. apply Forall_forall. intros r _.
    now rewrite length_map, length_seq.
Qed.

Lemma linear_forward_deferred_bias (l : ParallelLinear T) (x : tensor T) :
  width x = in_features l -> skip_bias_add l = true ->
  linear_forward l x =
  inr (linear_gemm l x, if use_bias l then Some (linear_bias l) else None).
Proof.
  intros Hw Hskip. unfold linear_forward.
  rewrite Hw, Nat.eqb_refl, Hskip.
  destruct (use_bias l); reflexivity.
Qed.

Lemma tensor_binop_linear_bias (op : T -> T -> T) (l : ParallelLinear T) (x : tensor T) :
  wf x -> width x = out_features l ->
  tensor_binop op x (linear_bias l) =
  inr (mkTensor (lead x) (width x)
         (map (fun r => zip_with op r (map bias_init (seq 0 (out_features l))))
              (rows x))).
Proof.
  intros Hwf Hw.
  apply tensor_binop_bias; auto; simpl.
  now rewrite length_map, length_seq.
Qed.

Lemma wf_add_rows (op : T -> T -> T) (x : tensor T) (b : list T) :
  wf x -> length b = width x ->
  wf (mkTensor (lead x) (width x) (map (fun r => zip_with op r b) (rows x))).
Proof.
  intros [Hn Hw] Hb. split; simpl.
  - now rewrite length_map.
  - rewrite Forall_map. eapply Forall_impl; [| exact Hw].
    intros r Hr. simpl in *. rewrite length_zip_with. lia.
Qed.

(** ** The nonlinearity stage *)

Lemma apply_non_linear_unfused (self : MLP T) (i : tensor T) :
  bias_gelu_fusion (self_config self) = false ->
  _apply_non_linear self i None = call_pyfunc (self_activation_func self) i
  /\ (forall b : tensor T,
        _apply_non_linear self i (Some b) =
        (s <~ tensor_binop elt_add i b ;;
         call_pyfunc (self_activation_func self) s)).
Proof.
  intros Hoff. unfold _apply_non_linear. rewrite Hoff.
  split; reflexivity.
Qed.

Lemma gated_instance_call (config : TransformerConfig T) (x : tensor T) (k : nat) :
  gated_linear_unit config = true ->
  width x = 2 * k ->
  wf x ->
  let gated :=
    mkTensor (lead x) k
      (map (fun r => zip_with elt_mul
                       (map (callable_elt (activation_func config)) (firstn k r))
                       (skipn k r))
           (rows x)) in
  call_pyfunc (self_activation_func (__init__ config)) x = inr gated /\ wf gated.
Proof.
  intros Hg Hw [Hn Hrows] gated. split.
  - simpl. rewrite Hg. simpl. now apply glu_even.
  - split; simpl.
    + now rewrite length_map.
    + rewrite Forall_map. eapply Forall_impl; [| exact Hrows].
      intros r Hr. simpl in Hr.
      rewrite length_zip_with, length_map, length_firstn, length_skipn. lia.
Qed.

(** C7: without the fused kernel, the stage applies the activation function
    directly to the intermediate tensor when the bias is None, and to the sum
    of the intermediate tensor and the bias when a bias is present; for a 1-D
    bias of the tensor's width that sum adds the bias to every row,
    element by element. *)
Theorem non_fused_adds_bias_then_activates (self : MLP T) (i : tensor T) :
  bias_gelu_fusion (self_config self) = false ->
  _apply_non_linear self i None = call_pyfunc (self_activation_func self) i
  /\ (forall b : tensor T,
        _apply_non_linear self i (Some b) =
        (s <~ tensor_binop elt_add i b ;;
         call_pyfunc (self_activation_func self) s))
  /\ (forall (b : tensor T) (brow : list T),
        wf i -> lead b = [] -> rows b = [brow] -> length brow = width b ->
        width b = width i ->
        _apply_non_linear self i (Some b) =
        call_pyfunc (self_activation_func self)
          (mkTensor (lead i) (width i)
             (map (fun r => zip_with elt_add r brow) (rows i)))).
Proof.
  intros Hoff.
  destruct (apply_non_linear_unfused self i Hoff) as [Hnone Hsome].
  split; [exact Hnone | split; [exact Hsome |]].
  intros b brow Hwf Hlead Hrows Hlen Hw.
  now rewrite Hsome, (tensor_binop_bias elt_add i b brow).
Qed.


(** C4: with [gated_linear_unit] set, [linear_fc1] is built with output width
    twice [ffn_hidden_size] and [linear_fc2] with input width
    [ffn_hidden_size]; gating a tensor of the doubled width gives a tensor of
    width [ffn_hidden_size], and so does the nonlinearity stage, without the
    fused kernel, on what [linear_fc1] returns. *)
Theorem gated_projection_widths (config : TransformerConfig T) :
  gated_linear_unit config = true ->
  let self := __init__ config in
  out_features (self_linear_fc1 self) = 2 * ffn_hidden_size config
  /\ in_features (self_linear_fc2 self) = ffn_hidden_size config
  /\ (forall x : tensor T,
        wf x -> width x = out_features (self_linear_fc1 self) ->
        exists y, call_pyfunc (self_activation_func self) x = inr y /\
                  width y = ffn_hidden_size config /\ lead y = lead x /\ wf y)
  /\ (bias_gelu_fusion config = false ->
      forall h : tensor T,
        wf h -> width h = hidden_size config ->
        exists i b y,
          linear_forward (self_linear_fc1 self) h = inr (i, b) /\
          width i = 2 * ffn_hidden_size config /\
          _apply_non_linear self i b = inr y /\
          width y = in_features (self_linear_fc2 self) /\ lead y = lead h).
Proof.
  intros Hg self.
  assert (Hout : out_features (self_linear_fc1 self) = 2 * ffn_hidden_size config).
  { simpl. rewrite Hg. lia. }
  assert (Hgate : forall x : tensor T,
             wf x -> width x = 2 * ffn_hidden_size config ->
             exists y, call_pyfunc (self_activation_func self) x = inr y /\
                       width y = ffn_hidden_size config /\ lead y = lead x /\ wf y).
  { intros x Hwf Hw.
    destruct (gated_instance_call config x _ Hg Hw Hwf) as [Hcall Hwfy].
    eexists. split; [exact Hcall |].
    split; [reflexivity | split; [reflexivity | exact Hwfy]]. }
  repeat split.
  - exact Hout.
  - intros x Hwf Hw. apply Hgate; [assumption | congruence].
  - intros Hoff h Hwf Hw.
    assert (Hfc1 : linear_forward (self_linear_fc1 self) h =
                   inr (linear_gemm (self_linear_fc1 self) h,
                        if use_bias (self_linear_fc1 self)
                        then Some (linear_bias (self_linear_fc1 self)) else None))
      by (apply linear_forward_deferred_bias; [exact Hw | reflexivity]).
    pose proof (wf_linear_gemm (self_linear_fc1 self) h (proj1 Hwf)) as Hwfi.
    set (i := linear_gemm (self_linear_fc1 self) h) in *.
    assert (Hwi : width i = 2 * ffn_hidden_size config) by exact Hout.
    destruct (apply_non_linear_unfused self i Hoff) as [Hnone Hsome].
    destruct (use_bias (self_linear_fc1 self)) eqn:Hbias; rewrite Hfc1.
    + set (summed := mkTensor (lead i) (width i)
                       (map (fun r => zip_with elt_add r
                                        (map bias_init
                                           (seq 0 (out_features (self_linear_fc1 self)))))
                            (rows i))).
      assert (Hwfs : wf summed).
      { apply wf_add_rows; [exact Hwfi |].
        now rewrite length_map, length_seq. }
      destruct (Hgate summed Hwfs Hwi) as (y & Hy & Hwy & Hly & _).
      exists i, (Some (linear_bias (self_linear_fc1 self))), y.
      repeat split; try assumption.
      rewrite Hsome, (tensor_binop_linear_bias elt_add _ i Hwfi) by reflexivity.
      exact Hy.
    + destruct (Hgate i Hwfi Hwi) as (y & Hy & Hwy & Hly & _).
      exists i, None, y.
      rewrite Hnone. repeat split; assumption.
Qed.

(** ** The fused kernel path *)

Lemma stages_when_stage_asserts (self : MLP T) (x : tensor T) :
  (forall i b, _apply_non_linear self i b = inl AssertionError) ->
  (forall v, stages self x <> inr v)
  /\ (forall p, linear_forward (self_linear_fc1 self) x = inr p ->
                stages self x = inl AssertionError).
Proof.
  intros Hraise. unfold stages.
  destruct (linear_forward (self_linear_fc1 self) x) as [e | [i b]]; simpl.
  - split; intros; discriminate.
  - rewrite Hraise. simpl. split; intros; [discriminate | reflexivity].
Qed.

Lemma forward_when_stage_asserts (self : MLP T) :
  skip_bias_add (self_linear_fc1 self) = true ->
  (forall i b, _apply_non_linear self i b = inl AssertionError) ->
  (forall x v, outcome (forward self x) <> inr v)
  /\ (forall x, width x = in_features (self_linear_fc1 self) ->
                outcome (forward self x) = inl AssertionError).
Proof.
  intros Hskip Hraise. split.
  - intros x v. rewrite outcome_forward.
    destruct (stages_when_stage_asserts self x Hraise) as [Hno _].
    destruct (stages self x) as [e | p]; simpl; [discriminate |].
    now elim (Hno p).
  - intros x Hw. rewrite outcome_forward.
    destruct (stages_when_stage_asserts self x Hraise) as [_ Hyes].
    erewrite Hyes; [reflexivity |].
    now apply linear_forward_deferred_bias.
Qed.

(** C2: with [bias_gelu_fusion] set, the nonlinearity stage produces a value
    only through the fused kernel, and only when [add_bias_linear] is true and
    the instance's activation function is [F.gelu] itself.  When
    [add_bias_linear] is false or the configured activation function is not
    [F.gelu], the stage raises AssertionError on every input, so [forward]
    never returns a value and raises AssertionError as soon as the input
    projection has accepted the hidden states. *)
Theorem fused_path_asserts_bias_and_gelu (config : TransformerConfig T) :
  bias_gelu_fusion config = true ->
  let self := __init__ config in
  (forall i b y,
      _apply_non_linear self i b = inr y ->
      add_bias_linear config = true /\
      self_activation_func self = ConfigFn F_gelu /\
      activation_func config = F_gelu /\
      bias_gelu_impl i b = inr y)
  /\ (add_bias_linear config && callable_is_F_gelu (activation_func config) = false ->
      (forall i b, _apply_non_linear self i b = inl AssertionError)
      /\ (forall x v, outcome (forward self x) <> inr v)
      /\ (forall x, width x = hidden_size config ->
                    outcome (forward self x) = inl AssertionError)).
Proof.
  intros Hon self. split.
  - intros i b y. unfold _apply_non_linear. simpl. rewrite Hon.
    destruct (add_bias_linear config); simpl; [| discriminate].
    destruct (gated_linear_unit config); simpl; [discriminate |].
    destruct (activation_func config); simpl; [| discriminate].
    auto.
  - intros Hbad.
    assert (Hraise : forall i b, _apply_non_linear self i b = inl AssertionError).
    { intros i b. unfold _apply_non_linear. simpl. rewrite Hon.
      destruct (add_bias_linear config); simpl; [| reflexivity].
      destruct (gated_linear_unit config); simpl; [reflexivity |].
      destruct (activation_func config); simpl in *; [discriminate | reflexivity]. }
    split; [exact Hraise |].
    apply (forward_when_stage_asserts self); [reflexivity | exact Hraise].
Qed.

(** C9: with [gated_linear_unit] and [bias_gelu_fusion] both set, the
    instance's activation function is the closure [glu], which is never
    [F.gelu], whatever the configured activation function is.  The
    nonlinearity stage raises AssertionError on every input, so [forward]
    never returns a value and raises AssertionError as soon as the input
    projection has accepted the hidden states. *)
Theorem gated_fused_forward_asserts (config : TransformerConfig T) :
  gated_linear_unit config = true ->
  bias_gelu_fusion config = true ->
  let self := __init__ config in
  self_activation_func self = GluClosure config
  /\ is_F_gelu (self_activation_func self) = false
  /\ (forall i b, _apply_non_linear self i b = inl AssertionError)
  /\ (forall x v, outcome (forward self x) <> inr v)
  /\ (forall x, width x = hidden_size config ->
                outcome (forward self x) = inl AssertionError).
Proof.
  intros Hg Hon self.
  assert (Hact : self_activation_func self = GluClosure config)
    by (simpl; now rewrite Hg).
  assert (Hraise : forall i b, _apply_non_linear self i b = inl AssertionError).
  { intros i b. unfold _apply_non_linear. rewrite Hact. simpl. rewrite Hon.
    destruct (add_bias_linear config); reflexivity. }
  split; [exact Hact |].
  split; [now rewrite Hact |].
  split; [exact Hraise |].
  apply (forward_when_stage_asserts self); [reflexivity | exact Hraise].
Qed.

(** ** Shapes *)

(** C8, as the code has it: with [gated_linear_unit] off and, when
    [bias_gelu_fusion] is set, [add_bias_linear] true and the activation
    function [F.gelu] itself, [forward] on a hidden state whose last
    dimension is [hidden_size] returns a pair whose output has the shape of
    the input and whose bias is a tensor when [add_bias_linear] is true and
    None when it is false.  Under the remaining configurations without
    gating, those with [bias_gelu_fusion] set and [add_bias_linear] false or
    another activation function, the nonlinearity stage raises
    AssertionError on every input, [forward] returns nothing, and on such a
    hidden state it raises AssertionError. *)
Theorem ungated_forward_keeps_shape (config : TransformerConfig T) (x : tensor T) :
  gated_linear_unit config = false ->
  ((bias_gelu_fusion config = false \/
    (add_bias_linear config = true /\ activation_func config = F_gelu)) ->
   wf x ->
   width x = hidden_size config ->
   let self := __init__ config in
   exists out : tensor T,
     outcome (forward self x) =
       inr (PyTuple [PyTensor out;
                     if add_bias_linear config
                     then PyTensor (linear_bias (self_linear_fc2 self))
                     else PyNone])
     /\ shape out = shape x
     /\ wf out)
  /\ (bias_gelu_fusion config = true ->
      add_bias_linear config && callable_is_F_gelu (activation_func config) = false ->
      (forall i b, _apply_non_linear (__init__ config) i b = inl AssertionError)
      /\ (forall v, outcome (forward (__init__ config) x) <> inr v)
      /\ (width x = hidden_size config ->
          outcome (forward (__init__ config) x) = inl AssertionError)).
Proof.
  intros Hg. split.
  { intros Hfuse Hwf Hw self.
    rewrite outcome_forward. unfold stages.
    rewrite (linear_forward_deferred_bias (self_linear_fc1 self) x) by auto.
    cbn [bindR fst snd].
    pose proof (wf_linear_gemm (self_linear_fc1 self) x (proj1 Hwf)) as Hwfi.
    set (i := linear_gemm (self_linear_fc1 self) x) in *.
    assert (Hact : self_activation_func self = ConfigFn (activation_func config))
      by (simpl; now rewrite Hg).
    assert (Hstage : exists y,
               _apply_non_linear self i
                 (if use_bias (self_linear_fc1 self)
                  then Some (linear_bias (self_linear_fc1 self)) else None) = inr y
               /\ lead y = lead x /\ width y = ffn_hidden_size config
               /\ length (rows y) = numel (lead y)).
    { assert (Hwi : width i = out_features (self_linear_fc1 self)) by reflexivity.
      assert (Hffn : width i = ffn_hidden_size config) by (simpl; now rewrite Hg).
      unfold _apply_non_linear. rewrite Hact.
      change (use_bias (self_linear_fc1 self)) with (add_bias_linear config).
      change (bias_gelu_fusion (self_config self)) with (bias_gelu_fusion config).
      change (add_bias_linear (self_config self)) with (add_bias_linear config).
      destruct (bias_gelu_fusion config) eqn:Hf.
      - destruct Hfuse as [Hfuse | [Hb Ha]]; [discriminate |].
        rewrite Hb, Ha. simpl assert. simpl bindR.
        unfold bias_gelu_impl.
        rewrite (tensor_binop_linear_bias _ _ i Hwfi Hwi).
        eexists. split; [reflexivity |]. simpl.
        rewrite !length_map. repeat split; try assumption. apply Hwf.
      - destruct (add_bias_linear config).
        + rewrite (tensor_binop_linear_bias _ _ i Hwfi Hwi). simpl.
          eexists. split; [reflexivity |]. simpl.
          rewrite !length_map. repeat split; try assumption. apply Hwf.
        + simpl. eexists. split; [reflexivity |]. simpl.
          rewrite !length_map. repeat split; try assumption. apply Hwf. }
    destruct Hstage as (y & Hy & Hly & Hwy & Hny).
    rewrite Hy. cbn [bindR fst snd].
    rewrite (linear_forward_deferred_bias (self_linear_fc2 self) y) by auto.
    cbn [bindR fst snd].
    exists (linear_gemm (self_linear_fc2 self) y).
    split; [| split].
    - unfold as_pair. simpl. destruct (add_bias_linear config); reflexivity.
    - unfold shape. simpl. now rewrite Hly, Hw.
    - now apply wf_linear_gemm.
  }
  { intros Hon Hbad.
    assert (Hraise : forall i b,
               _apply_non_linear (__init__ config) i b = inl AssertionError).
    { intros i b. unfold _apply_non_linear. simpl. rewrite Hon, Hg.
      destruct (add_bias_linear config); simpl; [| reflexivity].
      destruct (activation_func config); simpl in *; [discriminate | reflexivity]. }
    split; [exact Hraise |].
    destruct (forward_when_stage_asserts (__init__ config) eq_refl Hraise)
      as [Hnever Hassert].
    split; [apply Hnever | apply Hassert]. }
Qed.

End Properties.

(** * The block run on the integer backend *)

Lemma wf_demo_input : wf demo_input.
Proof. split; [reflexivity | repeat constructor]. Qed.

Lemma wf_demo_intermediate : wf demo_intermediate.
Proof. split; [reflexivity | repeat constructor]. Qed.

(** C1, as stated, fails: a configuration that requests both recomputation
    settings builds an instance with both gates enabled, and one call of
    [forward] hands first [_custom_function] and then, inside it,
    [_apply_non_linear] to the recomputation primitive. *)
Lemma both_recompute_gates_enabled :
  self_checkpoint_mlp (__init__ both_gates_config) = true
  /\ self_recompute_non_linear_layer_in_mlp (__init__ both_gates_config) = true
  /\ trace (forward (__init__ both_gates_config) demo_input) =
     [Region_custom_function; Region_apply_non_linear].
Proof. repeat split. Qed.

Lemma recompute_gates_follow_config_witness :
  In Region_custom_function (trace (forward (__init__ both_gates_config) demo_input))
  /\ In Region_apply_non_linear (trace (forward (__init__ both_gates_config) demo_input))
  /\ granularity_in_mlp_list (recompute_granularity both_gates_config) = true
  /\ recompute_non_linear_layer_in_mlp both_gates_config = true
  /\ width demo_input = hidden_size both_gates_config
  /\ trace (forward (__init__ both_gates_config) demo_input) =
     [Region_custom_function; Region_apply_non_linear]
  /\ granularity_in_mlp_list (recompute_granularity selective_config)
     && recompute_non_linear_layer_in_mlp selective_config = false
  /\ length (trace (forward (__init__ selective_config) demo_input)) <= 1.
Proof.
  assert (H1 : In Region_custom_function
                 (trace (forward (__init__ both_gates_config) demo_input)))
    by (vm_compute; left; reflexivity).
  assert (H2 : In Region_apply_non_linear
                 (trace (forward (__init__ both_gates_config) demo_input)))
    by (vm_compute; right; left; reflexivity).
  destruct (recompute_gates_follow_config both_gates_config)
    as (_ & _ & Honly & Hboth & _).
  destruct (recompute_gates_follow_config selective_config)
    as (_ & _ & _ & _ & Hone).
  split; [exact H1 | split; [exact H2 |]].
  destruct (Honly demo_input H1 H2) as [Hg Hr].
  split; [exact Hg | split; [exact Hr |]].
  split; [reflexivity |].
  split; [exact (Hboth Hg Hr demo_input eq_refl) |].
  split; [reflexivity |].
  exact (proj2 (Hone eq_refl) demo_input).
Defined.

Lemma checkpoint_mlp_iff_selective_granularity_witness :
  self_checkpoint_mlp (__init__ selective_config) = false
  /\ forward (__init__ selective_config) demo_input =
     (p <- _forward (__init__ selective_config) demo_input ;; ret (as_pair p))
  /\ ~ In Region_custom_function
         (trace (forward (__init__ selective_config) demo_input)).
Proof.
  split; [reflexivity |].
  apply (proj2 (checkpoint_mlp_iff_selective_granularity selective_config)).
  reflexivity.
Defined.

Lemma forward_returns_a_pair_witness :
  self_checkpoint_mlp (__init__ checkpointed_no_bias_config) = true
  /\ outcome (_custom_function (__init__ checkpointed_no_bias_config) demo_input) =
     inr (PyTensor (mkTensor [1; 2] 2 [[7; 12]; [0; 0]]%Z))
  /\ forward (__init__ checkpointed_no_bias_config) demo_input =
     ([Region_custom_function],
      inr (PyTuple [PyTensor (mkTensor [1; 2] 2 [[7; 12]; [0; 0]]%Z); PyNone])).
Proof.
  split; [reflexivity | split; [reflexivity |]].
  apply (proj2 (forward_returns_a_pair
                  (__init__ checkpointed_no_bias_config) demo_input));
    reflexivity.
Defined.

Lemma non_fused_adds_bias_then_activates_witness :
  bias_gelu_fusion (self_config (__init__ selective_config)) = false
  /\ _apply_non_linear (__init__ selective_config) demo_input None =
     inr (mkTensor [1; 2] 2 [[1; 2]; [3; 0]]%Z)
  /\ _apply_non_linear (__init__ selective_config) demo_input
       (Some (mkTensor [] 2 [[10; -20]%Z])) =
     inr (mkTensor [1; 2] 2 [[11; 0]; [13; 0]]%Z).
Proof.
  split; [reflexivity |].
  destruct (non_fused_adds_bias_then_activates
              (__init__ selective_config) demo_input)
    as (Hnone & _ & Hsome); [reflexivity |].
  split.
  - rewrite Hnone. reflexivity.
  - rewrite (Hsome (mkTensor [] 2 [[10; -20]%Z]) [10; -20]%Z);
      [reflexivity | exact wf_demo_input | reflexivity ..].
Defined.


Lemma gated_projection_widths_witness :
  gated_linear_unit gated_config = true
  /\ out_features (self_linear_fc1 (__init__ gated_config)) = 4
  /\ in_features (self_linear_fc2 (__init__ gated_config)) = 2
  /\ exists y,
       call_pyfunc (self_activation_func (__init__ gated_config)) demo_intermediate
       = inr y /\ width y = 2.
Proof.
  split; [reflexivity |].
  destruct (gated_projection_widths gated_config)
    as (Hfc1 & Hfc2 & Hgate & _); [reflexivity |].
  split; [exact Hfc1 | split; [exact Hfc2 |]].
  destruct (Hgate demo_intermediate) as (y & Hy & Hw & _);
    [exact wf_demo_intermediate | reflexivity |].
  exists y. split; [exact Hy | exact Hw].
Defined.

Lemma fused_path_asserts_bias_and_gelu_witness :
  bias_gelu_fusion fused_without_bias_config = true
  /\ add_bias_linear fused_without_bias_config
     && callable_is_F_gelu (activation_func fused_without_bias_config) = false
  /\ width demo_input = hidden_size fused_without_bias_config
  /\ outcome (forward (__init__ fused_without_bias_config) demo_input) =
     inl AssertionError.
Proof.
  split; [reflexivity | split; [reflexivity | split; [reflexivity |]]].
  destruct (fused_path_asserts_bias_and_gelu fused_without_bias_config)
    as (_ & Hbad); [reflexivity |].
  destruct Hbad as (_ & _ & Hforward); [reflexivity |].
  apply Hforward. reflexivity.
Defined.

Lemma gated_fused_forward_asserts_witness :
  gated_linear_unit gated_fused_config = true
  /\ bias_gelu_fusion gated_fused_config = true
  /\ activation_func gated_fused_config = F_gelu
  /\ add_bias_linear gated_fused_config = true
  /\ width demo_input = hidden_size gated_fused_config
  /\ outcome (forward (__init__ gated_fused_config) demo_input) =
     inl AssertionError.
Proof.
  do 5 (split; [reflexivity |]).
  destruct (gated_fused_forward_asserts gated_fused_config)
    as (_ & _ & _ & _ & Hforward); [reflexivity | reflexivity |].
  apply Hforward. reflexivity.
Defined.

(** C8, as stated, fails: with gating off, the fused kernel requested and
    biases disabled, [forward] on a hidden state of shape
    [[1; 2; hidden_size]] raises AssertionError and returns nothing. *)
Lemma ungated_fused_without_bias_raises :
  gated_linear_unit fused_without_bias_config = false
  /\ shape demo_input = [1; 2; hidden_size fused_without_bias_config]
  /\ wf demo_input
  /\ forward (__init__ fused_without_bias_config) demo_input =
     ([], inl AssertionError).
Proof.
  split; [reflexivity | split; [reflexivity | split; [exact wf_demo_input |]]].
  reflexivity.
Qed.

Lemma ungated_forward_keeps_shape_witness :
  gated_linear_unit selective_config = false
  /\ bias_gelu_fusion selective_config = false
  /\ wf demo_input
  /\ width demo_input = hidden_size selective_config
  /\ (exists out : tensor Z,
        outcome (forward (__init__ selective_config) demo_input) =
          inr (PyTuple [PyTensor out;
                        PyTensor (linear_bias (self_linear_fc2
                                                 (__init__ selective_config)))])
        /\ shape out = shape demo_input
        /\ wf out)
  /\ gated_linear_unit fused_without_bias_config = false
  /\ bias_gelu_fusion fused_without_bias_config = true
  /\ add_bias_linear fused_without_bias_config
     && callable_is_F_gelu (activation_func fused_without_bias_config) = false
  /\ width demo_input = hidden_size fused_without_bias_config
  /\ outcome (forward (__init__ fused_without_bias_config) demo_input) =
     inl AssertionError.
Proof.
  split; [reflexivity | split; [reflexivity | split; [exact wf_demo_input |]]].
  split; [reflexivity |].
  split.
  - apply (proj1 (ungated_forward_keeps_shape selective_config demo_input
                    eq_refl));
      [left; reflexivity | exact wf_demo_input | reflexivity].
  - do 4 (split; [reflexivity |]).
    destruct (proj2 (ungated_forward_keeps_shape fused_without_bias_config
                       demo_input eq_refl) eq_refl eq_refl)
      as (_ & _ & Hassert).
    apply Hassert. reflexivity.
Defined.

(** * Further properties of the block *)

Section Block.

Context {T : Type} {backend : Backend T}.

(** ** What [forward] computes *)

Lemma stage_value (config : TransformerConfig T) (i : tensor T) :
  fusion_consistent config = true ->
  wf i ->
  width i = out_features (self_linear_fc1 (__init__ config)) ->
  _apply_non_linear (__init__ config) i
    (if add_bias_linear config
     then Some (linear_bias (self_linear_fc1 (__init__ config))) else None) =
  inr (mkTensor (lead i) (ffn_hidden_size config)
         (map (stage_row config) (rows i))).
Proof.
  intros Hc Hwf Hwi.
  set (self := __init__ config) in *.
  unfold fusion_consistent in Hc.
  destruct (bias_gelu_fusion config) eqn:Hf.
  - (* the fused kernel *)
    simpl in Hc. apply andb_prop in Hc. destruct Hc as [Hc Hgelu].
    apply andb_prop in Hc. destruct Hc as [Hb Hg].
    apply negb_true_iff in Hg.
    destruct (activation_func config) eqn:Ha; [| discriminate].
    rewrite Hb.
    unfold _apply_non_linear.
    change (bias_gelu_fusion (self_config self)) with (bias_gelu_fusion config).
    change (add_bias_linear (self_config self)) with (add_bias_linear config).
    assert (Hact : self_activation_func self = ConfigFn F_gelu)
      by (simpl; now rewrite Hg, Ha).
    rewrite Hf, Hb, Hact. cbn [assert bindR is_F_gelu].
    unfold bias_gelu_impl.
    rewrite (tensor_binop_linear_bias _ _ i Hwf Hwi).
    assert (Hffn : width i = ffn_hidden_size config)
      by (rewrite Hwi; simpl; now rewrite Hg).
    rewrite Hffn. do 2 f_equal.
    apply map_ext. intros r. unfold stage_row. rewrite Hf.
    simpl. now rewrite Hg.
  - (* bias addition, then the activation function *)
    destruct (apply_non_linear_unfused self i Hf) as [Hnone Hsome].
    destruct (gated_linear_unit config) eqn:Hg.
    + assert (Hw2 : width i = 2 * ffn_hidden_size config)
        by (rewrite Hwi; simpl; rewrite Hg; lia).
      assert (Hout : out_features (self_linear_fc1 self) = ffn_hidden_size config * 2)
        by (simpl; now rewrite Hg).
      destruct (add_bias_linear config) eqn:Hb.
      * rewrite Hsome, (tensor_binop_linear_bias _ _ i Hwf Hwi).
        cbn [bindR].
        match goal with |- call_pyfunc _ ?s = _ => set (summed := s) end.
        assert (Hwfs : wf summed).
        { apply wf_add_rows; [exact Hwf |].
          rewrite length_map, length_seq. now rewrite Hwi. }
        destruct (gated_instance_call config summed _ Hg Hw2 Hwfs) as [Hcall _].
        fold self in Hcall. rewrite Hcall. do 2 f_equal.
        unfold summed. cbn [rows]. rewrite map_map.
        apply map_ext. intros r. unfold stage_row. rewrite Hf, Hg, Hb.
        now rewrite Hout.
      * rewrite Hnone.
        destruct (gated_instance_call config i _ Hg Hw2 Hwf) as [Hcall _].
        fold self in Hcall. rewrite Hcall. do 2 f_equal.
        apply map_ext. intros r. unfold stage_row. now rewrite Hf, Hg, Hb.
    + assert (Hffn : width i = ffn_hidden_size config)
        by (rewrite Hwi; simpl; now rewrite Hg).
      assert (Hout : out_features (self_linear_fc1 self) = ffn_hidden_size config)
        by (simpl; now rewrite Hg).
      assert (Hact : self_activation_func self = ConfigFn (activation_func config))
        by (simpl; now rewrite Hg).
      destruct (add_bias_linear config) eqn:Hb.
      * rewrite Hsome, (tensor_binop_linear_bias _ _ i Hwf Hwi), Hact.
        cbn [bindR call_pyfunc]. unfold call, map_tensor. cbn [lead width rows].
        rewrite Hffn, map_map. do 2 f_equal.
        apply map_ext. intros r. unfold stage_row. rewrite Hf, Hg, Hb.
        now rewrite Hout.
      * rewrite Hnone, Hact.
        cbn [call_pyfunc]. unfold call, map_tensor.
        rewrite Hffn. do 2 f_equal.
        apply map_ext. intros r. unfold stage_row. now rewrite Hf, Hg, Hb.
Qed.

Lemma stages_value (config : TransformerConfig T) (x : tensor T) :
  fusion_consistent config = true ->
  wf x ->
  width x = hidden_size config ->
  stages (__init__ config) x =
  inr (mkTensor (lead x) (hidden_size config) (map (mlp_row config) (rows x)),
       if add_bias_linear config
       then Some (linear_bias (self_linear_fc2 (__init__ config)))
       else None).
Proof.
  intros Hc Hwf Hw.
  unfold stages.
  rewrite (linear_forward_deferred_bias (self_linear_fc1 (__init__ config)) x) by auto.
  cbn [bindR fst snd].
  pose proof (wf_linear_gemm (self_linear_fc1 (__init__ config)) x (proj1 Hwf)) as Hwfi.
  change (use_bias (self_linear_fc1 (__init__ config))) with (add_bias_linear config).
  rewrite (stage_value config _ Hc Hwfi) by reflexivity.
  cbn [bindR].
  rewrite linear_forward_deferred_bias by reflexivity.
  change (use_bias (self_linear_fc2 (__init__ config))) with (add_bias_linear config).
  do 2 f_equal.
  unfold linear_gemm. cbn [lead width rows].
  f_equal. rewrite !map_map.
  apply map_ext. intros r. reflexivity.
Qed.

Lemma length_mlp_row (config : TransformerConfig T) (r : list T) :
  length (mlp_row config r) = hidden_size config.
Proof. unfold mlp_row. now rewrite length_map, length_seq. Qed.

(** X1: for a configuration whose fused-kernel setting is consistent and a
    well-formed hidden state of width [hidden_size], [forward] returns the
    tensor obtained by applying [mlp_row] to every row of the input,
    independently of the other rows and of the recomputation settings, with
    the leading dimensions of the input, paired with the bias of
    [linear_fc2], which is not added to the output. *)
Theorem forward_computes_row_by_row (config : TransformerConfig T) (x : tensor T) :
  fusion_consistent config = true ->
  wf x ->
  width x = hidden_size config ->
  let out := mkTensor (lead x) (hidden_size config)
               (map (mlp_row config) (rows x)) in
  outcome (forward (__init__ config) x) =
    inr (PyTuple [PyTensor out;
                  if add_bias_linear config
                  then PyTensor (linear_bias (self_linear_fc2 (__init__ config)))
                  else PyNone])
  /\ (forall n, nth_error (rows out) n =
                option_map (mlp_row config) (nth_error (rows x) n))
  /\ shape out = shape x
  /\ wf out.
Proof.
  intros Hc Hwf Hw out.
  split; [| split; [| split]].
  - rewrite outcome_forward, (stages_value config x Hc Hwf Hw).
    cbn [bindR]. unfold as_pair. cbn [fst snd].
    destruct (add_bias_linear config); reflexivity.
  - intros n. apply nth_error_map.
  - unfold shape. simpl. now rewrite Hw.
  - split; simpl.
    + rewrite length_map. apply Hwf.
    + rewrite Forall_map. apply Forall_forall. intros r _.
      apply length_mlp_row.
Qed.

(** ** When [forward] raises *)

Lemma stage_asserts_when_inconsistent (config : TransformerConfig T) :
  fusion_consistent config = false ->
  forall i b, _apply_non_linear (__init__ config) i b = inl AssertionError.
Proof.
  unfold fusion_consistent. intros Hc i b.
  unfold _apply_non_linear. simpl.
  destruct (bias_gelu_fusion config); simpl in *; [| discriminate].
  destruct (add_bias_linear config); simpl in *; [| reflexivity].
  destruct (gated_linear_unit config); simpl in *; [reflexivity |].
  destruct (activation_func config); simpl in *; [discriminate | reflexivity].
Qed.

Lemma forward_rejects_width (self : MLP T) (x : tensor T) :
  width x <> in_features (self_linear_fc1 self) ->
  outcome (forward self x) = inl ShapeError.
Proof.
  intros Hw. rewrite outcome_forward. unfold stages, linear_forward.
  apply Nat.eqb_neq in Hw. now rewrite Hw.
Qed.

(** X2: [forward] of a constructed instance raises ShapeError when the last
    dimension of the hidden state is not [hidden_size], whatever the rest of
    the configuration; with the right width it raises AssertionError when
    the fused-kernel setting is inconsistent; and on a well-formed hidden
    state it returns a value exactly when the width is right and the setting
    is consistent, so that it raises neither IndexError nor TypeError. *)
Theorem forward_raises_exactly (config : TransformerConfig T) (x : tensor T) :
  (width x <> hidden_size config ->
   outcome (forward (__init__ config) x) = inl ShapeError)
  /\ (width x = hidden_size config -> fusion_consistent config = false ->
      outcome (forward (__init__ config) x) = inl AssertionError)
  /\ (wf x ->
      ((exists v, outcome (forward (__init__ config) x) = inr v) <->
       width x = hidden_size config /\ fusion_consistent config = true)
      /\ outcome (forward (__init__ config) x) <> inl IndexError
      /\ outcome (forward (__init__ config) x) <> inl TypeError).
Proof.
  assert (Hshape : width x <> hidden_size config ->
                   outcome (forward (__init__ config) x) = inl ShapeError)
    by (intros Hw; now apply forward_rejects_width).
  assert (Hassert : width x = hidden_size config ->
                    fusion_consistent config = false ->
                    outcome (forward (__init__ config) x) = inl AssertionError).
  { intros Hw Hc.
    apply (forward_when_stage_asserts (__init__ config));
      [reflexivity | now apply stage_asserts_when_inconsistent | exact Hw]. }
  split; [exact Hshape | split; [exact Hassert |]].
  intros Hwf.
  destruct (Nat.eq_dec (width x) (hidden_size config)) as [Hw | Hw].
  - destruct (fusion_consistent config) eqn:Hc.
    + rewrite outcome_forward, (stages_value config x Hc Hwf Hw). cbn [bindR].
      split; [split | split; discriminate].
      * intros _. split; [exact Hw | reflexivity].
      * intros _. eexists; reflexivity.
    + rewrite (Hassert Hw eq_refl).
      split; [split | split; discriminate].
      * intros [v Hv]; discriminate.
      * intros [_ H]; discriminate.
  - rewrite (Hshape Hw).
    split; [split | split; discriminate].
    + intros [v Hv]; discriminate.
    + intros [H _]; contradiction.
Qed.

(** ** Which regions are recomputed *)

(** X3: the calls of the recomputation primitive made by one call of
    [forward] are determined by the two recomputation settings and by the
    width of the hidden state alone: first [_custom_function] when
    [recompute_granularity] is one of the two listed strings, then
    [_apply_non_linear] when [recompute_non_linear_layer_in_mlp] is set and
    the input projection has accepted the hidden state, also when the
    nonlinearity stage then raises. *)
Theorem checkpoint_calls_of_forward (config : TransformerConfig T) (x : tensor T) :
  trace (forward (__init__ config) x) =
  (if granularity_in_mlp_list (recompute_granularity config)
   then [Region_custom_function] else [])
  ++ (if (width x =? hidden_size config)
         && recompute_non_linear_layer_in_mlp config
      then [Region_apply_non_linear] else []).
Proof.
  rewrite trace_forward, trace__forward. f_equal.
  destruct (Nat.eqb_spec (width x) (hidden_size config)) as [Hw | Hw].
  - rewrite linear_forward_deferred_bias by auto. reflexivity.
  - unfold linear_forward. apply Nat.eqb_neq in Hw.
    change (in_features (self_linear_fc1 (__init__ config)))
      with (hidden_size config).
    now rewrite Hw.
Qed.

(** ** What [_custom_function] hands to the recomputation primitive *)

Lemma linear_forward_bias (l : ParallelLinear T) (x o : tensor T) b :
  skip_bias_add l = true ->
  linear_forward l x = inr (o, b) ->
  b = if use_bias l then Some (linear_bias l) else None.
Proof.
  intros Hskip. unfold linear_forward. rewrite Hskip.
  destruct (width x =? in_features l); [| discriminate].
  destruct (use_bias l); intros H; inversion H; reflexivity.
Qed.

(** X4: whenever [_custom_function] of a constructed instance returns, its
    result contains no None: it is the pair of the output and the bias of
    [linear_fc2] when [add_bias_linear] is true, and the output tensor alone
    when it is false. *)
Theorem custom_function_yields_no_None (config : TransformerConfig T)
    (x : tensor T) (v : pyval T) :
  outcome (_custom_function (__init__ config) x) = inr v ->
  exists out : tensor T,
    (add_bias_linear config = true /\
     v = PyTuple [PyTensor out;
                  PyTensor (linear_bias (self_linear_fc2 (__init__ config)))])
    \/ (add_bias_linear config = false /\ v = PyTensor out).
Proof.
  rewrite outcome__custom_function.
  destruct (stages (__init__ config) x) as [e | [o b]] eqn:Hs;
    cbn [bindR fst snd]; [discriminate |].
  intros Hv. exists o.
  unfold stages in Hs.
  destruct (linear_forward (self_linear_fc1 (__init__ config)) x) as [e | p];
    cbn [bindR] in Hs; [discriminate |].
  destruct (_apply_non_linear (__init__ config) (fst p) (snd p)) as [e | i];
    cbn [bindR] in Hs; [discriminate |].
  apply linear_forward_bias in Hs; [| reflexivity].
  change (use_bias (self_linear_fc2 (__init__ config)))
    with (add_bias_linear config) in Hs.
  destruct (add_bias_linear config); subst b; inversion Hv; auto.
Qed.

(** ** Gating a tensor of odd width *)

Lemma chunk_odd (x : tensor T) (k : nat) :
  1 <= k ->
  width x = 2 * k + 1 ->
  chunk x 2 =
  inr [mkTensor (lead x) (k + 1)
         (map (fun r => firstn (k + 1) (skipn 0 r)) (rows x));
       mkTensor (lead x) k
         (map (fun r => firstn (k + 1) (skipn (k + 1) r)) (rows x))].
Proof.
  intros Hk Hw. unfold chunk. rewrite Hw.
  change (2 =? 0) with false. cbv beta iota zeta.
  assert (Hss : (2 * k + 1 + 2 - 1) / 2 = k + 1).
  { replace (2 * k + 1 + 2 - 1) with (0 + (k + 1) * 2) by lia.
    rewrite Nat.div_add by lia. reflexivity. }
  rewrite Hss.
  assert (Hp : (if k + 1 =? 0 then 2 else (2 * k + 1 + (k + 1) - 1) / (k + 1)) = 2).
  { destruct (Nat.eqb_spec (k + 1) 0) as [| _]; [reflexivity |].
    replace (2 * k + 1 + (k + 1) - 1) with ((k - 1) + 2 * (k + 1)) by lia.
    rewrite Nat.div_add by lia.
    rewrite Nat.div_small by lia. reflexivity. }
  rewrite Hp. change (seq 0 2) with [0; 1]. cbn [map].
  replace (Nat.min (k + 1) (2 * k + 1 - 0 * (k + 1))) with (k + 1) by lia.
  replace (Nat.min (k + 1) (2 * k + 1 - 1 * (k + 1))) with k by lia.
  replace (1 * (k + 1)) with (k + 1) by lia.
  reflexivity.
Qed.

(** X5: the closure [glu] on a tensor whose last dimension is odd.  Width 1
    gives a single chunk, so the subscript [x[1]] raises IndexError; width
    [2 * k + 1] with [k >= 2] gives chunks of widths [k + 1] and [k], whose
    product raises a shape error; width 3 gives chunks of widths 2 and 1,
    and the product broadcasts the third element of every row over the two
    activated ones instead of failing. *)
Theorem glu_on_odd_width (config : TransformerConfig T) (x : tensor T) :
  (width x = 1 -> glu config x = inl IndexError)
  /\ (forall k, 2 <= k -> width x = 2 * k + 1 -> glu config x = inl ShapeError)
  /\ (width x = 3 -> wf x ->
      glu config x =
      inr (mkTensor (lead x) 2
             (map (fun r =>
                     match r with
                     | [a; b; c] =>
                         [elt_mul (callable_elt (activation_func config) a) c;
                          elt_mul (callable_elt (activation_func config) b) c]
                     | _ => []
                     end)
                  (rows x)))).
Proof.
  split; [| split].
  - intros Hw. unfold glu, chunk. rewrite Hw. reflexivity.
  - intros k Hk Hw. unfold glu.
    rewrite (chunk_odd x k) by (assumption || lia).
    cbn [bindR getitem nth_error].
    unfold tensor_binop, call, map_tensor. cbn [width]. unfold bcast_width.
    destruct (Nat.eqb_spec (k + 1) k) as [H | _]; [lia |].
    destruct (Nat.eqb_spec k 1) as [H | _]; [lia |].
    destruct (Nat.eqb_spec (k + 1) 1) as [H | _]; [lia |].
    reflexivity.
  - intros Hw [_ Hrows]. unfold glu.
    rewrite (chunk_odd x 1) by (assumption || lia).
    cbn [bindR getitem nth_error].
    unfold tensor_binop, call, map_tensor. cbn [width lead rows].
    change (bcast_width (1 + 1) 1) with (@inr exn nat 2). cbn [bindR].
    destruct (list_eq_dec Nat.eq_dec (lead x) (lead x)) as [_ | Hne];
      [| now elim Hne].
    do 2 f_equal.
    rewrite map_map, zip_with_map_same.
    apply map_ext_in. intros r Hr.
    rewrite Forall_forall in Hrows. specialize (Hrows r Hr). rewrite Hw in Hrows.
    destruct r as [| a [| b [| c [| d r]]]]; simpl in Hrows; try discriminate.
    reflexivity.
Qed.

End Block.

(** * The further properties on the integer backend *)

Lemma wf_width3_input : wf width3_input.
Proof. split; [reflexivity | repeat constructor]. Qed.

Lemma forward_computes_row_by_row_witness :
  fusion_consistent gated_both_gates_config = true
  /\ wf demo_input
  /\ width demo_input = hidden_size gated_both_gates_config
  /\ outcome (forward (__init__ gated_both_gates_config) demo_input) =
     inr (PyTuple [PyTensor (mkTensor [1; 2] 2 [[544; 1048]; [-128; -192]]%Z);
                   PyTensor (mkTensor [] 2 [[0; 1]%Z])]).
Proof.
  split; [reflexivity | split; [exact wf_demo_input | split; [reflexivity |]]].
  destruct (forward_computes_row_by_row gated_both_gates_config demo_input)
    as (Hvalue & _); [reflexivity | exact wf_demo_input | reflexivity |].
  rewrite Hvalue. reflexivity.
Defined.

Lemma forward_raises_exactly_witness :
  width narrow_input <> hidden_size fused_without_bias_config
  /\ outcome (forward (__init__ fused_without_bias_config) narrow_input) =
     inl ShapeError
  /\ width demo_input = hidden_size fused_without_bias_config
  /\ fusion_consistent fused_without_bias_config = false
  /\ outcome (forward (__init__ fused_without_bias_config) demo_input) =
     inl AssertionError.
Proof.
  assert (Hnarrow : width narrow_input <> hidden_size fused_without_bias_config)
    by (simpl; lia).
  split; [exact Hnarrow |].
  split.
  - exact (proj1 (forward_raises_exactly fused_without_bias_config narrow_input)
                 Hnarrow).
  - split; [reflexivity | split; [reflexivity |]].
    apply (proj1 (proj2 (forward_raises_exactly fused_without_bias_config
                                                demo_input)));
      reflexivity.
Defined.

Lemma custom_function_yields_no_None_witness :
  outcome (_custom_function (__init__ checkpointed_no_bias_config) demo_input) =
    inr (PyTensor (mkTensor [1; 2] 2 [[7; 12]; [0; 0]]%Z))
  /\ exists out : tensor Z,
       (add_bias_linear checkpointed_no_bias_config = true /\
        PyTensor (mkTensor [1; 2] 2 [[7; 12]; [0; 0]]%Z) =
        PyTuple [PyTensor out;
                 PyTensor (linear_bias (self_linear_fc2
                                          (__init__ checkpointed_no_bias_config)))])
       \/ (add_bias_linear checkpointed_no_bias_config = false /\
           PyTensor (mkTensor [1; 2] 2 [[7; 12]; [0; 0]]%Z) = PyTensor out).
Proof.
  split; [reflexivity |].
  apply (custom_function_yields_no_None checkpointed_no_bias_config demo_input).
  reflexivity.
Defined.

Lemma glu_on_odd_width_witness :
  width narrow_input = 1
  /\ glu gated_config narrow_input = inl IndexError
  /\ width width5_input = 2 * 2 + 1
  /\ glu gated_config width5_input = inl ShapeError
  /\ width width3_input = 3
  /\ wf width3_input
  /\ glu gated_config width3_input =
     inr (mkTensor [2] 2 [[1 * 1 * 3; 2 * 2 * 3]; [4 * 4 * 6; 5 * 5 * 6]]%Z).
Proof.
  split; [reflexivity |].
  split; [apply (proj1 (glu_on_odd_width gated_config narrow_input)); reflexivity |].
  split; [reflexivity |].
  split; [apply (proj1 (proj2 (glu_on_odd_width gated_config width5_input)) 2);
          [lia | reflexivity] |].
  split; [reflexivity | split; [exact wf_width3_input |]].
  rewrite (proj2 (proj2 (glu_on_odd_width gated_config width3_input)) eq_refl
                 wf_width3_input).
  reflexivity.
Defined.
